(** * Fast-Spark-TTS: segmentation and orchestration contract of [BaseEngine]

    A shallow embedding of [fast_tts/engine/base_engine.py].

    - [BaseEngine]: the tokenizing closure built by [BaseEngine.split_text]
      and the signatures of the abstract generation entry points are
      transcribed from the source.
    - [utils]: [fast_tts/engine/utils.py] (imported by the source as
      [from .utils import split_text]) is not part of the sources at hand;
      the segmenter is modelled from the specification (section 4.1).
    - [Session]: the bodies of the generation entry points are abstract in
      [BaseEngine]; the batch and streaming orchestration is modelled from
      the specification (section 4.2). *)

From Stdlib Require Import ZArith List Ascii String Lia Sorted QArith.
From stdpp Require Import base gmap strings list fin_maps sorting.

Local Open Scope Z_scope.

(** ** Strings *)

Module Str.



(** [s.endswith(suffix)] and the text before the suffix. *)
Fixpoint strip_suffix (suffix s : string) : option string :=
  if String.eqb s suffix then Some EmptyString
  else match s with
       | EmptyString => None
       | String a s' => option_map (String a) (strip_suffix suffix s')
       end.

End Str.

(** ** The segmenter, [utils.split_text] *)

Module utils.

Section Segmenter.

(** Token ids; only their number matters to the segmenter. *)
Context {Token : Type}.

(** The built-in sentence boundary detector used when [split_fn] is [None].
    Its code is not available; the segmenter is parametric in it. *)
Variable default_split_fn : string -> list string.

(** A chunk under construction: the sentence units it is made of, in order.
    Its text is their concatenation, and its token count is the count the
    tokenizing function gives for that text. *)
Definition Chunk : Type := list string.

Definition chunk_text (c : Chunk) : string := fold_right String.append EmptyString c.

Section WithTokenizer.

Variable tokenize_fn : string -> list Token.

Definition token_count (s : string) : Z := Z.of_nat (length (tokenize_fn s)).

Definition chunk_tokens (c : Chunk) : Z := token_count (chunk_text c).

(** Modelled from the spec: steps 2-4 of the segmenter algorithm; the body
    of [utils.split_text] is missing.  Units are accumulated into the
    running chunk [current] while the cumulative token count stays within
    [window_size]; when adding the next unit would exceed it, the running
    chunk is closed and a new one is started with that unit.  A unit is
    never cut: one that no chunk can take is a chunk of its own. *)
Fixpoint accumulate (window_size : Z) (current : Chunk) (units : list string)
  : list Chunk :=
  match units with
  | [] => match current with [] => [] | _ :: _ => [current] end
  | u :: rest =>
      match current with
      | [] => accumulate window_size [u] rest
      | _ :: _ =>
          if chunk_tokens (current ++ [u]) <=? window_size
          then accumulate window_size (current ++ [u]) rest
          else current :: accumulate window_size [u] rest
      end
  end.

(** Modelled from the spec: step 5 of the segmenter algorithm; the body of
    [utils.split_text] is missing.  A chunk whose token count is below
    [length_threshold] is merged forward into the next chunk; the last
    chunk has no successor and is kept as it is. *)
Fixpoint merge_forward (length_threshold : Z) (carry : Chunk) (rest : list Chunk)
  : list Chunk :=
  match rest with
  | [] => [carry]
  | next :: rest' =>
      if chunk_tokens carry <? length_threshold
      then merge_forward length_threshold (carry ++ next) rest'
      else carry :: merge_forward length_threshold next rest'
  end.

Definition merge_short (length_threshold : Z) (chunks : list Chunk) : list Chunk :=
  match chunks with
  | [] => []
  | c :: rest => merge_forward length_threshold c rest
  end.

(** Step 1: the units come from [split_fn], or from the built-in splitter
    when no custom one is given. *)
Definition sentence_units (split_fn : option (string -> list string)) (text : string)
  : list string :=
  match split_fn with
  | Some f => f text
  | None => default_split_fn text
  end.

(** Modelled from the spec: the segmenter of section 4.1, with the
    parameter order of the call in [BaseEngine.split_text]; the body of
    [utils.split_text] is missing. *)
Definition split_chunks (text : string) (window_size : Z)
    (split_fn : option (string -> list string)) (length_threshold : Z) : list Chunk :=
  merge_short length_threshold
    (accumulate window_size [] (sentence_units split_fn text)).

Definition split_text (text : string) (window_size : Z)
    (split_fn : option (string -> list string)) (length_threshold : Z) : list string :=
  map chunk_text (split_chunks text window_size split_fn length_threshold).

(** A chunk respects the budget when its token count is within the window
    or it is one unit that alone exceeds the window. *)
Definition within_budget (window_size : Z) (c : Chunk) : Prop :=
  chunk_tokens c <= window_size
  \/ exists u, c = [u] /\ window_size < token_count u.

End WithTokenizer.

End Segmenter.

End utils.

(** ** [BaseEngine]: the tokenizing closure and the declared entry points *)

Module BaseEngine.

(** The keyword arguments of [tokenizer.encode] that the source fixes. *)
Record EncodeKwargs : Type := {
  add_special_tokens : bool;
  truncation : bool;
  padding : bool
}.

(** [self.generator.tokenizer.encode]: the tokenizer is an external
    collaborator, so [encode] is a field. *)
Record Tokenizer : Type := { encode : string -> EncodeKwargs -> list Z }.
Record Generator : Type := { tokenizer : Tokenizer }.
Record t : Type := { generator : Generator }.

Definition SAMPLE_RATE : Z := 16000.

(** [functools.partial(f, **kw)] called with the text alone. *)
Definition partial (f : string -> EncodeKwargs -> list Z) (kw : EncodeKwargs)
  : string -> list Z := fun text => f text kw.

(** Lines 79-84. *)
Definition tokenize_fn (self : t) : string -> list Z :=
  partial (encode (tokenizer (generator self)))
    {| add_special_tokens := false; truncation := false; padding := false |}.

(** [BaseEngine.split_text], lines 72-90.  The segmenter is passed in as
    [utils_split_text], in the argument order of the call. *)
Definition split_text_with
    (utils_split_text :
       string -> Z -> (string -> list Z) -> option (string -> list string) -> Z
       -> list string)
    (self : t) (text : string) (length_threshold window_size : Z)
    (split_fn : option (string -> list string)) : list string :=
  utils_split_text text window_size (tokenize_fn self) split_fn length_threshold.

(** [BaseEngine.split_text] over the modelled segmenter. *)
Definition split_text (default_split_fn : string -> list string)
    (self : t) (text : string) (length_threshold window_size : Z)
    (split_fn : option (string -> list string)) : list string :=
  split_text_with
    (fun text window_size tokenize_fn split_fn length_threshold =>
       utils.split_text default_split_fn tokenize_fn text window_size split_fn
         length_threshold)
    self text length_threshold window_size split_fn.

(** *** Signatures *)

(** Default values and call arguments.  A float literal is kept as the
    decimal it is written as. *)
Inductive PyValue : Type :=
| PyNone
| PyInt (z : Z)
| PyFloat (q : Q)
| PyStr (s : string)
| PyObject (ref : positive).

Record Param : Type := { name : string; default : option PyValue }.

Definition required (n : string) : Param := {| name := n; default := None |}.
Definition optional (n : string) (v : PyValue) : Param :=
  {| name := n; default := Some v |}.

Inductive Returns : Type :=
| Unannotated
| ListStr
| NdArray
| AsyncIteratorNdArray.

(** A method of the class: its parameters after [self] or [cls], whether it
    takes [**kwargs], its return annotation and whether it is decorated
    with [@abstractmethod]. *)
Record Signature : Type := {
  method : string;
  params : list Param;
  var_keyword : bool;
  returns : Returns;
  abstractmethod : bool
}.

Definition init : Signature := {|
  method := "__init__";
  params := [ required "llm_model_path";
              optional "max_length" (PyInt 32768);
              optional "llm_device" (PyStr "auto");
              optional "backend" (PyStr "torch");
              optional "llm_attn_implementation" PyNone;
              optional "torch_dtype" (PyStr "auto");
              optional "llm_gpu_memory_utilization" (PyFloat 0.6);
              optional "cache_implementation" PyNone;
              optional "batch_size" (PyInt 32);
              optional "seed" (PyInt 0);
              optional "stop_tokens" PyNone;
              optional "stop_token_ids" PyNone ];
  var_keyword := true;
  returns := Unannotated;
  abstractmethod := false
|}.

Definition set_seed : Signature := {|
  method := "set_seed";
  params := [ required "seed" ];
  var_keyword := false;
  returns := Unannotated;
  abstractmethod := false
|}.

Definition auto_detect_device : Signature := {|
  method := "_auto_detect_device";
  params := [ required "device" ];
  var_keyword := false;
  returns := Unannotated;
  abstractmethod := false
|}.

Definition write_audio : Signature := {|
  method := "write_audio";
  params := [ required "audio"; required "filepath" ];
  var_keyword := false;
  returns := Unannotated;
  abstractmethod := false
|}.

Definition split_text_sig : Signature := {|
  method := "split_text";
  params := [ required "text";
              optional "length_threshold" (PyInt 50);
              optional "window_size" (PyInt 50);
              optional "split_fn" PyNone ];
  var_keyword := false;
  returns := ListStr;
  abstractmethod := false
|}.

Definition speak_async : Signature := {|
  method := "speak_async";
  params := [ required "name";
              required "text";
              optional "temperature" (PyFloat 0.9);
              optional "top_k" (PyInt 50);
              optional "top_p" (PyFloat 0.95);
              optional "max_tokens" (PyInt 4096);
              optional "length_threshold" (PyInt 50);
              optional "window_size" (PyInt 50);
              optional "split_fn" PyNone ];
  var_keyword := true;
  returns := NdArray;
  abstractmethod := true
|}.

Definition speak_stream_async : Signature := {|
  method := "speak_stream_async";
  params := [ required "name";
              required "text";
              optional "temperature" (PyFloat 0.9);
              optional "top_k" (PyInt 50);
              optional "top_p" (PyFloat 0.95);
              optional "max_tokens" (PyInt 4096);
              optional "length_threshold" (PyInt 50);
              optional "window_size" (PyInt 50);
              optional "split_fn" PyNone ];
  var_keyword := true;
  returns := AsyncIteratorNdArray;
  abstractmethod := true
|}.

Definition clone_voice_async : Signature := {|
  method := "clone_voice_async";
  params := [ required "text";
              required "reference_audio";
              optional "reference_text" PyNone;
              optional "temperature" (PyFloat 0.9);
              optional "top_k" (PyInt 50);
              optional "top_p" (PyFloat 0.95);
              optional "max_tokens" (PyInt 4096);
              optional "length_threshold" (PyInt 50);
              optional "window_size" (PyInt 50);
              optional "split_fn" PyNone ];
  var_keyword := true;
  returns := NdArray;
  abstractmethod := true
|}.

Definition clone_voice_stream_async : Signature := {|
  method := "clone_voice_stream_async";
  params := [ required "text";
              required "reference_audio";
              optional "reference_text" PyNone;
              optional "temperature" (PyFloat 0.9);
              optional "top_k" (PyInt 50);
              optional "top_p" (PyFloat 0.95);
              optional "max_tokens" (PyInt 4096);
              optional "length_threshold" (PyInt 50);
              optional "window_size" (PyInt 50);
              optional "split_fn" PyNone ];
  var_keyword := true;
  returns := AsyncIteratorNdArray;
  abstractmethod := true
|}.

Definition generate_voice_async : Signature := {|
  method := "generate_voice_async";
  params := [ required "text";
              optional "gender" (PyStr "female");
              optional "pitch" (PyStr "moderate");
              optional "speed" (PyStr "moderate");
              optional "temperature" (PyFloat 0.9);
              optional "top_k" (PyInt 50);
              optional "top_p" (PyFloat 0.95);
              optional "max_tokens" (PyInt 4096);
              optional "length_threshold" (PyInt 50);
              optional "window_size" (PyInt 50);
              optional "split_fn" PyNone ];
  var_keyword := true;
  returns := NdArray;
  abstractmethod := true
|}.

Definition generate_voice_stream_async : Signature := {|
  method := "generate_voice_stream_async";
  params := [ required "text";
              optional "gender" (PyStr "female");
              optional "pitch" (PyStr "moderate");
              optional "speed" (PyStr "moderate");
              optional "temperature" (PyFloat 0.9);
              optional "top_k" (PyInt 50);
              optional "top_p" (PyFloat 0.95);
              optional "max_tokens" (PyInt 4096);
              optional "length_threshold" (PyInt 50);
              optional "window_size" (PyInt 50);
              optional "split_fn" PyNone ];
  var_keyword := true;
  returns := AsyncIteratorNdArray;
  abstractmethod := true
|}.

(** The methods of the class, in source order. *)
Definition methods : list Signature :=
  [ init; set_seed; auto_detect_device; write_audio; split_text_sig;
    speak_async; speak_stream_async;
    clone_voice_async; clone_voice_stream_async;
    generate_voice_async; generate_voice_stream_async ].

(** The generation entry points are the abstract methods: every engine
    has to provide them. *)
Definition generation_entry_points : list Signature :=
  List.filter abstractmethod methods.

Inductive Form : Type := Batch | Streaming.

(** The operation family and the form of an entry point, read off its
    name: [<family>_stream_async] or [<family>_async]. *)
Definition classify (sig : Signature) : option (string * Form) :=
  match Str.strip_suffix "_stream_async" (method sig) with
  | Some family => Some (family, Streaming)
  | None =>
      match Str.strip_suffix "_async" (method sig) with
      | Some family => Some (family, Batch)
      | None => None
      end
  end.

Definition families (sigs : list Signature) : list string :=
  remove_dups (omap (fun sig => fst <$> classify sig) sigs).

Definition default_of (sig : Signature) (n : string) : option PyValue :=
  p ← List.find (fun p => String.eqb (name p) n) (params sig); default p.

Definition accepts (sig : Signature) (n : string) : bool :=
  existsb (fun p => String.eqb (name p) n) (params sig).

(** The parameters shared by the generation entry points, with the
    values the documentation gives as their defaults. *)
Definition shared_defaults : list (string * PyValue) :=
  [ ("temperature", PyFloat 0.9);
    ("top_k", PyInt 50);
    ("top_p", PyFloat 0.95);
    ("max_tokens", PyInt 4096);
    ("length_threshold", PyInt 50);
    ("window_size", PyInt 50);
    ("split_fn", PyNone) ].

(** *** Binding a keyword call *)

(** The outcome of binding the arguments of a call: the value of every
    declared parameter, in declaration order, and what is collected by
    [**kwargs]. *)
Record Bound : Type := {
  bound : list (string * PyValue);
  extra : gmap string PyValue
}.

Definition bind_param (kw : gmap string PyValue) (p : Param)
  : option (string * PyValue) :=
  match kw !! name p with
  | Some v => Some (name p, v)
  | None => pair (name p) <$> default p
  end.

Definition declared (sig : Signature) (n : string) : bool :=
  bool_decide (n ∈ name <$> params sig).

(** A call by keywords alone.  A required parameter that is not supplied, or a
    keyword that is not a parameter of a method without [**kwargs], is a
    [TypeError] ([None]). *)
Definition bind (sig : Signature) (kw : gmap string PyValue) : option Bound :=
  args ← mapM (bind_param kw) (params sig);
  let rest := filter (fun kv => declared sig kv.1 = false) kw in
  if var_keyword sig || bool_decide (rest = ∅)
  then Some {| bound := args; extra := rest |}
  else None.

(** *** Device detection, lines 58-67 *)

(** What [_auto_detect_device] asks the platform: [torch.cuda.is_available()],
    [platform.system()] and [torch.backends.mps.is_available()]. *)
Record Platform : Type := {
  cuda_is_available : bool;
  system : string;
  mps_is_available : bool
}.

(** The test of line 60:
    [device in ["cpu", "cuda", "mps"] or device.startswith("cuda")]. *)
Definition names_device (device : string) : bool :=
  existsb (String.eqb device) ["cpu"; "cuda"; "mps"] || String.prefix "cuda" device.

Definition _auto_detect_device (env : Platform) (device : string) : string :=
  if names_device device then device
  else if cuda_is_available env then "cuda"
  else if String.eqb (system env) "Darwin" && mps_is_available env then "mps"
  else "cpu".

(** *** The constructor, lines 19-49 *)

(** A call [f(k1=v1, ..., kn=vn, **kwargs)]: the keywords that reach [f].
    A keyword of [kwargs] that is also written out in the call is a
    [TypeError] ([None]). *)
Definition call_keywords (named : list (string * PyValue))
    (kwargs : gmap string PyValue) : option (gmap string PyValue) :=
  if forallb (fun kv => bool_decide (kwargs !! kv.1 = None)) named
  then Some (list_to_map named ∪ kwargs)
  else None.

(** The arguments of [__init__] once bound.  [llm_device] is a [str]; the
    other arguments are passed on as they are. *)
Record InitArgs : Type := {
  llm_model_path : PyValue;
  max_length : PyValue;
  llm_device : string;
  backend : PyValue;
  llm_attn_implementation : PyValue;
  torch_dtype : PyValue;
  llm_gpu_memory_utilization : PyValue;
  cache_implementation : PyValue;
  batch_size : PyValue;
  seed : PyValue;
  stop_tokens : PyValue;
  stop_token_ids : PyValue;
  kwargs : gmap string PyValue
}.

(** The keywords written out in the call of [initialize_llm], lines 35-49,
    in the order of the source. *)
Definition initialize_llm_named (env : Platform) (a : InitArgs)
  : list (string * PyValue) :=
  [ ("model_path", llm_model_path a);
    ("backend", backend a);
    ("max_length", max_length a);
    ("device", PyStr (_auto_detect_device env (llm_device a)));
    ("attn_implementation", llm_attn_implementation a);
    ("torch_dtype", torch_dtype a);
    ("gpu_memory_utilization", llm_gpu_memory_utilization a);
    ("cache_implementation", cache_implementation a);
    ("batch_size", batch_size a);
    ("seed", seed a);
    ("stop_tokens", stop_tokens a);
    ("stop_token_ids", stop_token_ids a) ].

Definition initialize_llm_keywords (env : Platform) (a : InitArgs)
  : option (gmap string PyValue) :=
  call_keywords (initialize_llm_named env a) (kwargs a).

(** [__init__]: [initialize_llm] is an external collaborator that builds the
    generator from its keywords, or fails. *)
Definition __init__ (initialize_llm : gmap string PyValue -> option Generator)
    (env : Platform) (a : InitArgs) : option t :=
  kw ← initialize_llm_keywords env a;
  g ← initialize_llm kw;
  Some {| generator := g |}.

(** The names of the parameters of a method that have no default. *)
Definition required_names (sig : Signature) : list string :=
  omap (fun p => match default p with
                 | None => Some (name p)
                 | Some _ => None
                 end) (params sig).

End BaseEngine.

(** ** Generation sessions: batch and streaming orchestration *)

Module Session.

(** Mono 16-bit PCM samples. *)
Definition Waveform : Type := list Z.
Definition Frame : Type := list Z.

Inductive Gender : Type := female | male.
Inductive Level : Type := very_low | low | moderate | high | very_high.

(** The voice context of the three families, from their parameters in
    [BaseEngine]: [name]; [reference_audio] and [reference_text];
    [gender], [pitch] and [speed]. *)
Inductive VoiceContext : Type :=
| NamedVoice (name : string)
| ReferenceVoice (reference_audio : Waveform) (reference_text : option string)
| AttributeVoice (gender : option Gender) (pitch speed : option Level).

Record Sampling : Type := {
  temperature : Q;
  top_k : Z;
  top_p : Q;
  max_tokens : Z
}.

(** One request to the backend: a chunk, the voice context and the
    sampling parameters. *)
Record Request : Type := {
  chunk : string;
  voice : VoiceContext;
  sampling : Sampling
}.

Inductive Outcome (A : Type) : Type :=
| Completed (a : A)
| BackendFailure (reason : string).
Arguments Completed {A} a.
Arguments BackendFailure {A} reason.

(** A frame as it leaves a streaming entry point, with the position of the
    emission cursor: the index of the chunk being generated and the index
    of the frame within that chunk. *)
Record Emission : Type := {
  chunk_index : nat;
  frame_index : nat;
  frame : Frame
}.

Section Orchestration.

(** The state of the backend (sampler, caches), threaded through the
    calls in the order they are made. *)
Context {St : Type}.

Variable default_split_fn : string -> list string.

(** Modelled from the spec: the backend generation capability of section
    6; no engine implementing [BaseEngine] is available.  [generate]
    returns a complete waveform or fails; [generate_stream] returns the
    frames it produced, in generation order, and the failure that ended
    them, if any. *)
Record Engine : Type := {
  base : BaseEngine.t;
  generate : Request -> St -> Outcome Waveform * St;
  generate_stream : Request -> St -> list Frame * option string * St
}.

Variable self : Engine.

Definition segment (text : string) (length_threshold window_size : Z)
    (split_fn : option (string -> list string)) : list string :=
  BaseEngine.split_text default_split_fn (base self) text length_threshold
    window_size split_fn.

(** Modelled from the spec: the batch variant of section 4.2; the entry
    points of [BaseEngine] have no body.  Each segment is generated in
    turn and its waveform appended to [audios]; the waveforms are
    concatenated when the last segment is done.  A failure of the backend
    fails the call, with no partial waveform. *)
Fixpoint batch_loop (v : VoiceContext) (s : Sampling) (segments : list string)
    (audios : list Waveform) (st : St) : Outcome Waveform * St :=
  match segments with
  | [] => (Completed (concat audios), st)
  | seg :: rest =>
      match generate self {| chunk := seg; voice := v; sampling := s |} st with
      | (Completed audio, st') => batch_loop v s rest (audios ++ [audio]) st'
      | (BackendFailure e, st') => (BackendFailure e, st')
      end
  end.

Definition generate_batch (v : VoiceContext) (text : string)
    (temperature : Q) (top_k : Z) (top_p : Q) (max_tokens : Z)
    (length_threshold window_size : Z)
    (split_fn : option (string -> list string)) (st : St)
  : Outcome Waveform * St :=
  batch_loop v
    {| temperature := temperature; top_k := top_k; top_p := top_p;
       max_tokens := max_tokens |}
    (segment text length_threshold window_size split_fn) [] st.

(** The frames of one chunk, tagged with the cursor. *)
Definition tag_frames (i : nat) (frames : list Frame) : list Emission :=
  imap (fun j f => {| chunk_index := i; frame_index := j; frame := f |}) frames.

(** Modelled from the spec: the streaming variant of section 4.2; the
    entry points of [BaseEngine] have no body.  For each segment in turn
    the frames of the backend are forwarded in the order they are
    produced; the cursor moves to the next segment when the frames of the
    current one are out.  A failure ends the stream after the frames
    produced so far. *)
Fixpoint stream_loop (v : VoiceContext) (s : Sampling) (segments : list string)
    (cursor : nat) (emitted : list Emission) (st : St)
  : list Emission * option string * St :=
  match segments with
  | [] => (emitted, None, st)
  | seg :: rest =>
      match generate_stream self {| chunk := seg; voice := v; sampling := s |} st with
      | (frames, None, st') =>
          stream_loop v s rest (S cursor) (emitted ++ tag_frames cursor frames) st'
      | (frames, Some e, st') =>
          (emitted ++ tag_frames cursor frames, Some e, st')
      end
  end.

Definition generate_stream_all (v : VoiceContext) (text : string)
    (temperature : Q) (top_k : Z) (top_p : Q) (max_tokens : Z)
    (length_threshold window_size : Z)
    (split_fn : option (string -> list string)) (st : St)
  : list Emission * option string * St :=
  stream_loop v
    {| temperature := temperature; top_k := top_k; top_p := top_p;
       max_tokens := max_tokens |}
    (segment text length_threshold window_size split_fn) 0%nat [] st.

(** The entry points, with the parameters of their signatures. *)

Definition speak_async (name text : string) :=
  generate_batch (NamedVoice name) text.

Definition speak_stream_async (name text : string) :=
  generate_stream_all (NamedVoice name) text.

Definition clone_voice_async (text : string) (reference_audio : Waveform)
    (reference_text : option string) :=
  generate_batch (ReferenceVoice reference_audio reference_text) text.

Definition clone_voice_stream_async (text : string) (reference_audio : Waveform)
    (reference_text : option string) :=
  generate_stream_all (ReferenceVoice reference_audio reference_text) text.

Definition generate_voice_async (text : string) (gender : option Gender)
    (pitch speed : option Level) :=
  generate_batch (AttributeVoice gender pitch speed) text.

Definition generate_voice_stream_async (text : string) (gender : option Gender)
    (pitch speed : option Level) :=
  generate_stream_all (AttributeVoice gender pitch speed) text.

(** The family-specific arguments of a call, and the two forms of
    each family as one operation. *)
Inductive Call : Type :=
| Speak (name : string)
| CloneVoice (reference_audio : Waveform) (reference_text : option string)
| GenerateVoice (gender : option Gender) (pitch speed : option Level).

Definition voice_of (c : Call) : VoiceContext :=
  match c with
  | Speak name => NamedVoice name
  | CloneVoice reference_audio reference_text =>
      ReferenceVoice reference_audio reference_text
  | GenerateVoice gender pitch speed => AttributeVoice gender pitch speed
  end.

Definition batch_entry (c : Call) (text : string) :=
  match c with
  | Speak name => speak_async name text
  | CloneVoice reference_audio reference_text =>
      clone_voice_async text reference_audio reference_text
  | GenerateVoice gender pitch speed =>
      generate_voice_async text gender pitch speed
  end.

Definition stream_entry (c : Call) (text : string) :=
  match c with
  | Speak name => speak_stream_async name text
  | CloneVoice reference_audio reference_text =>
      clone_voice_stream_async text reference_audio reference_text
  | GenerateVoice gender pitch speed =>
      generate_voice_stream_async text gender pitch speed
  end.

(** The emission expected of the frame sequences [fss] of successive
    chunks, the first of them being chunk [cursor]: the sequences one
    after the other, each in its own order. *)
Definition in_chunk_order (cursor : nat) (fss : list (list Frame)) : list Emission :=
  concat (imap (fun i => tag_frames (cursor + i)) fss).

(** Per-chunk generation, one request after the other: [generated st rs
    audios st'] when the requests [rs], issued from state [st] from left
    to right, all complete, with waveforms [audios] and final state
    [st']. *)
Inductive generated : St -> list Request -> list Waveform -> St -> Prop :=
| generated_nil st : generated st [] [] st
| generated_cons st r audio st' rs audios st'' :
    generate self r st = (Completed audio, st') ->
    generated st' rs audios st'' ->
    generated st (r :: rs) (audio :: audios) st''.

(** Per-chunk streaming, one request after the other, up to the first
    failure: [streamed st rs fss err st'] when the requests that were
    issued produced the frame sequences [fss]. *)
Inductive streamed
  : St -> list Request -> list (list Frame) -> option string -> St -> Prop :=
| streamed_nil st : streamed st [] [] None st
| streamed_next st r frames st' rs fss err st'' :
    generate_stream self r st = (frames, None, st') ->
    streamed st' rs fss err st'' ->
    streamed st (r :: rs) (frames :: fss) err st''
| streamed_failed st r frames e st' rs :
    generate_stream self r st = (frames, Some e, st') ->
    streamed st (r :: rs) [frames] (Some e) st'.

Definition requests (v : VoiceContext) (s : Sampling) (segments : list string)
  : list Request :=
  map (fun seg => {| chunk := seg; voice := v; sampling := s |}) segments.

End Orchestration.

(** The order of the emission cursor: by chunk, then by frame. *)
Definition cursor_le (a b : Emission) : Prop :=
  (chunk_index a < chunk_index b)%nat
  \/ (chunk_index a = chunk_index b /\ (frame_index a <= frame_index b)%nat).

End Session.

(** ** Test doubles

    A character-level tokenizer, a splitter on sentence terminators and a
    backend that renders characters as samples, used to run the definitions
    on concrete inputs. *)

Module Fixtures.

Definition codes (s : string) : list Z :=
  map (fun a => Z.of_nat (nat_of_ascii a)) (list_ascii_of_string s).

(** One token per character; with special tokens a begin and an end
    marker are added. *)
Definition char_encode (text : string) (kw : BaseEngine.EncodeKwargs) : list Z :=
  if BaseEngine.add_special_tokens kw then 1 :: codes text ++ [2] else codes text.

(** One token per character with other ids, and three markers when
    special tokens are asked for. *)
Definition shifted_encode (text : string) (kw : BaseEngine.EncodeKwargs) : list Z :=
  if BaseEngine.add_special_tokens kw
  then 0 :: 1 :: map (Z.add 1000) (codes text) ++ [2]
  else map (Z.add 1000) (codes text).

Definition engine_of (enc : string -> BaseEngine.EncodeKwargs -> list Z) : BaseEngine.t :=
  {| BaseEngine.generator :=
       {| BaseEngine.tokenizer := {| BaseEngine.encode := enc |} |} |}.

Definition is_terminator (a : ascii) : bool :=
  match a with
  | "."%char | "!"%char | "?"%char => true
  | _ => false
  end.

(** Cuts after every terminator; [current] is the unit being read, in
    reverse. *)
Fixpoint split_go (current : string) (s : string) : list string :=
  match s with
  | EmptyString =>
      match current with
      | EmptyString => []
      | _ => [String.rev current]
      end
  | String a s' =>
      if is_terminator a
      then String.rev (String a current) :: split_go EmptyString s'
      else split_go (String a current) s'
  end.

Definition split_on_terminators (text : string) : list string :=
  split_go EmptyString text.

(** A backend whose state counts the requests served.  A chunk is
    rendered as the codes of its characters, one frame per character; a
    chunk containing ['#'] fails, in streaming mode after the frames before
    the mark. *)
Fixpoint before_mark (s : string) : string * bool :=
  match s with
  | EmptyString => (EmptyString, false)
  | String a s' =>
      if Ascii.eqb a "#"%char then (EmptyString, true)
      else let '(p, m) := before_mark s' in (String a p, m)
  end.

Definition render (r : Session.Request) (served : nat)
  : Session.Outcome Session.Waveform * nat :=
  match before_mark (Session.chunk r) with
  | (p, false) => (Session.Completed (codes p), S served)
  | (_, true) => (Session.BackendFailure "mark", S served)
  end.

Definition render_stream (r : Session.Request) (served : nat)
  : list Session.Frame * option string * nat :=
  match before_mark (Session.chunk r) with
  | (p, m) =>
      (map (fun z => [z]) (codes p), if m then Some "mark"%string else None, S served)
  end.

Definition renderer (enc : string -> BaseEngine.EncodeKwargs -> list Z)
  : Session.Engine (St := nat) :=
  {| Session.base := engine_of enc;
     Session.generate := render;
     Session.generate_stream := render_stream |}.

(** Two platforms, and the arguments of the constructor at their defaults
    for a device and [**kwargs]. *)
Definition linux_cuda : BaseEngine.Platform :=
  {| BaseEngine.cuda_is_available := true;
     BaseEngine.system := "Linux";
     BaseEngine.mps_is_available := false |}.

Definition mac : BaseEngine.Platform :=
  {| BaseEngine.cuda_is_available := false;
     BaseEngine.system := "Darwin";
     BaseEngine.mps_is_available := true |}.

Definition init_args (llm_device : string) (kwargs : gmap string BaseEngine.PyValue)
  : BaseEngine.InitArgs :=
  {| BaseEngine.llm_model_path := BaseEngine.PyStr "Spark-TTS-0.5B/LLM";
     BaseEngine.max_length := BaseEngine.PyInt 32768;
     BaseEngine.llm_device := llm_device;
     BaseEngine.backend := BaseEngine.PyStr "torch";
     BaseEngine.llm_attn_implementation := BaseEngine.PyNone;
     BaseEngine.torch_dtype := BaseEngine.PyStr "auto";
     BaseEngine.llm_gpu_memory_utilization := BaseEngine.PyFloat 0.6;
     BaseEngine.cache_implementation := BaseEngine.PyNone;
     BaseEngine.batch_size := BaseEngine.PyInt 32;
     BaseEngine.seed := BaseEngine.PyInt 0;
     BaseEngine.stop_tokens := BaseEngine.PyNone;
     BaseEngine.stop_token_ids := BaseEngine.PyNone;
     BaseEngine.kwargs := kwargs |}.

(** An [initialize_llm] that always succeeds. *)
Definition any_llm (_ : gmap string BaseEngine.PyValue) : option BaseEngine.Generator :=
  Some {| BaseEngine.tokenizer := {| BaseEngine.encode := char_encode |} |}.

End Fixtures.

(** * Properties *)

(** ** Strings *)

Lemma append_cons (a : ascii) (s t : string) :
  String.append (String a s) t = String a (String.append s t).
Proof. reflexivity. Qed.

Lemma append_nil_r (s : string) : String.append s "" = s.
Proof.
  induction s as [|a s IH]; [reflexivity|].
  rewrite append_cons, IH. reflexivity.
Qed.


(** ** The segmenter *)

Section SegmenterFacts.

Context {Token : Type}.
Variable default_split_fn : string -> list string.
Variable tokenize_fn : string -> list Token.

Local Abbreviation tokens := (utils.chunk_tokens tokenize_fn).
Local Abbreviation accumulate := (utils.accumulate tokenize_fn).
Local Abbreviation merge_forward := (utils.merge_forward tokenize_fn).
Local Abbreviation merge_short := (utils.merge_short tokenize_fn).
Local Abbreviation within_budget := (utils.within_budget tokenize_fn).
Local Abbreviation split_chunks := (utils.split_chunks default_split_fn tokenize_fn).

Lemma chunk_tokens_unit (u : string) : tokens [u] = utils.token_count tokenize_fn u.
Proof.
  unfold utils.chunk_tokens, utils.chunk_text. cbn [fold_right].
  rewrite append_nil_r. reflexivity.
Qed.



(** *** No unit is lost, duplicated or moved *)





(** *** The greedy pass keeps the budget *)

Lemma within_budget_unit (w : Z) (u : string) : within_budget w [u].
Proof.
  destruct (Z_le_gt_dec (utils.token_count tokenize_fn u) w) as [Hle|Hgt].
  - left. now rewrite chunk_tokens_unit.
  - right. exists u. split; [reflexivity | lia].
Qed.

Lemma accumulate_budget (w : Z) (units : list string) :
  forall current,
    current = [] \/ within_budget w current ->
    Forall (within_budget w) (accumulate w current units).
Proof.
  induction units as [|u rest IH]; intros current Hcur; simpl.
  - destruct current as [|c0 current]; [constructor|].
    destruct Hcur as [Hnil|Hb]; [discriminate|].
    constructor; [exact Hb | constructor].
  - destruct current as [|c0 current].
    + apply IH. right. apply within_budget_unit.
    + destruct Hcur as [Hnil|Hb]; [discriminate|].
      destruct (Z.leb_spec (tokens ((c0 :: current) ++ [u])) w) as [Hle|Hgt].
      * apply IH. right. left. exact Hle.
      * constructor; [exact Hb|].
        apply IH. right. apply within_budget_unit.
Qed.

(** *** The merge pass *)

Lemma merge_forward_nonempty (th : Z) (rest : list utils.Chunk) :
  forall carry, merge_forward th carry rest <> [].
Proof.
  induction rest as [|next rest IH]; intros carry; simpl.
  - discriminate.
  - destruct (_ <? _); [apply IH | discriminate].
Qed.


Lemma accumulate_nil_inv (w : Z) (units : list string) :
  forall current, accumulate w current units = [] -> current = [] /\ units = [].
Proof.
  induction units as [|u rest IH]; intros current H; simpl in H.
  - destruct current; [split; reflexivity | discriminate].
  - destruct current as [|c0 current].
    + apply IH in H. destruct H as [H _]. discriminate.
    + destruct (_ <=? _); [|discriminate].
      apply IH in H. destruct H as [H _].
      destruct current; discriminate.
Qed.

(** *** What [split_text] returns *)





(** [split_text] returns no chunk exactly when the splitting function
    yields no unit: a unit, even an empty one, always gives a chunk. *)
Lemma split_text_nil_iff (text : string) (w : Z)
    (split_fn : option (string -> list string)) (th : Z) :
  utils.split_text default_split_fn tokenize_fn text w split_fn th = [] <->
  utils.sentence_units default_split_fn split_fn text = [].
Proof.
  unfold utils.split_text, utils.split_chunks, utils.merge_short. split.
  - intros H. apply map_eq_nil in H.
    destruct (accumulate w [] _) as [|c rest] eqn:E.
    + apply accumulate_nil_inv in E. apply E.
    + exfalso. exact (merge_forward_nonempty th rest c H).
  - intros ->. reflexivity.
Qed.

End SegmenterFacts.

(** *** The segmenter sees the tokenizer through token counts only *)

Section SegmenterExt.

Context {Token Token' : Type}.
Variable default_split_fn default_split_fn' : string -> list string.
Variable tokenize_fn : string -> list Token.
Variable tokenize_fn' : string -> list Token'.
Hypothesis same_counts : forall s, length (tokenize_fn s) = length (tokenize_fn' s).

Lemma chunk_tokens_ext (c : utils.Chunk) :
  utils.chunk_tokens tokenize_fn c = utils.chunk_tokens tokenize_fn' c.
Proof.
  unfold utils.chunk_tokens, utils.token_count.
  rewrite same_counts. reflexivity.
Qed.

Lemma accumulate_ext (w : Z) (units : list string) :
  forall current,
    utils.accumulate tokenize_fn w current units
    = utils.accumulate tokenize_fn' w current units.
Proof.
  induction units as [|u rest IH]; intros current; simpl; [reflexivity|].
  destruct current as [|c0 current]; [apply IH|].
  rewrite chunk_tokens_ext, !IH. reflexivity.
Qed.

Lemma merge_forward_ext (th : Z) (rest : list utils.Chunk) :
  forall carry,
    utils.merge_forward tokenize_fn th carry rest
    = utils.merge_forward tokenize_fn' th carry rest.
Proof.
  induction rest as [|next rest IH]; intros carry; simpl; [reflexivity|].
  rewrite chunk_tokens_ext, !IH. reflexivity.
Qed.

Lemma split_text_ext (text : string) (w : Z)
    (split_fn split_fn' : option (string -> list string)) (th : Z) :
  utils.sentence_units default_split_fn split_fn text
  = utils.sentence_units default_split_fn' split_fn' text ->
  utils.split_text default_split_fn tokenize_fn text w split_fn th
  = utils.split_text default_split_fn' tokenize_fn' text w split_fn' th.
Proof.
  intros Hunits.
  unfold utils.split_text, utils.split_chunks, utils.merge_short.
  rewrite Hunits, accumulate_ext.
  destruct (utils.accumulate tokenize_fn' w [] _) as [|c rest]; [reflexivity|].
  rewrite merge_forward_ext. reflexivity.
Qed.

End SegmenterExt.

(** *** The segmenter on concrete texts *)

Example split_text_single_chunk :
  utils.split_text Fixtures.split_on_terminators
    (BaseEngine.tokenize_fn (Fixtures.engine_of Fixtures.char_encode))
    "Hello world. This is a test." 50 None 50
  = ["Hello world. This is a test."].
Proof. reflexivity. Qed.

Example split_text_two_chunks :
  utils.split_text Fixtures.split_on_terminators
    (BaseEngine.tokenize_fn (Fixtures.engine_of Fixtures.char_encode))
    "Hello world. This is a test." 16 None 10
  = ["Hello world."; " This is a test."].
Proof. reflexivity. Qed.

Example split_text_oversized_unit :
  utils.split_text Fixtures.split_on_terminators
    (BaseEngine.tokenize_fn (Fixtures.engine_of Fixtures.char_encode))
    "Hi. Hello world. Yo." 4 None 0
  = ["Hi."; " Hello world."; " Yo."].
Proof. reflexivity. Qed.

(** No grouping of the units of a text into chunks can always keep both
    the window and the threshold.  With one token per character, a window of
    13 and a threshold of 5, the units below have 3 and 13 tokens: kept
    apart, the first chunk is below the threshold; joined, the chunk has 16
    tokens and two units. *)
Lemma window_and_threshold_conflict (chunks : list utils.Chunk) :
  concat chunks = ["Hi."; " Hello world."] ->
  ~ (Forall
       (utils.within_budget
          (BaseEngine.tokenize_fn (Fixtures.engine_of Fixtures.char_encode)) 13)
       chunks
     /\ Forall
          (fun c =>
             5 <= utils.chunk_tokens
                    (BaseEngine.tokenize_fn (Fixtures.engine_of Fixtures.char_encode)) c)
          (removelast chunks)).
Proof.
  intros Hc [Hb Ht].
  destruct chunks as [|c rest]; [discriminate Hc|].
  cbn [concat] in Hc.
  destruct c as [|u1 c].
  - destruct rest as [|r rest]; [discriminate Hc|].
    cbn [removelast] in Ht. inversion Ht as [|? ? H0 _]; subst.
    vm_compute in H0. apply H0. reflexivity.
  - injection Hc as -> Hc. destruct c as [|u2 c].
    + destruct rest as [|r rest]; [discriminate Hc|].
      cbn [removelast] in Ht. inversion Ht as [|? ? H0 _]; subst.
      vm_compute in H0. apply H0. reflexivity.
    + injection Hc as -> Hc. apply app_eq_nil in Hc. destruct Hc as [-> _].
      inversion Hb as [|? ? H0 _]; subst.
      destruct H0 as [Hle | (u & Hu & _)]; [|discriminate Hu].
      vm_compute in Hle. apply Hle. reflexivity.
Qed.


(** ** [BaseEngine] *)

(** C6.  [BaseEngine.split_text] hands the segmenter the tokenizer's [encode]
    with [add_special_tokens], [truncation] and [padding] all off, and the
    result depends on the tokenizer through the number of tokens of that
    encoding alone: two engines whose plain encodings have the same lengths
    segment every text alike, whatever their tokens are and whatever they do
    with special tokens, truncation or padding. *)
Theorem split_text_tokenizing_function
    (default_split_fn : string -> list string) (self self' : BaseEngine.t)
    (text : string) (length_threshold window_size : Z)
    (split_fn : option (string -> list string)) :
  let plain :=
    {| BaseEngine.add_special_tokens := false;
       BaseEngine.truncation := false;
       BaseEngine.padding := false |} in
  (forall s,
      length (BaseEngine.encode (BaseEngine.tokenizer (BaseEngine.generator self)) s plain)
      = length (BaseEngine.encode (BaseEngine.tokenizer (BaseEngine.generator self')) s
                  plain)) ->
  (forall s,
      BaseEngine.tokenize_fn self s
      = BaseEngine.encode (BaseEngine.tokenizer (BaseEngine.generator self)) s plain)
  /\ (forall segmenter,
         BaseEngine.split_text_with segmenter self text length_threshold window_size
           split_fn
         = segmenter text window_size (BaseEngine.tokenize_fn self) split_fn
             length_threshold)
  /\ BaseEngine.split_text default_split_fn self text length_threshold window_size
       split_fn
     = BaseEngine.split_text default_split_fn self' text length_threshold window_size
         split_fn.
Proof.
  intros plain Hlen.
  split; [reflexivity|]. split; [reflexivity|].
  unfold BaseEngine.split_text, BaseEngine.split_text_with.
  apply split_text_ext; [|reflexivity].
  intros s. apply Hlen.
Qed.

Lemma split_text_tokenizing_function_witness :
  Fixtures.char_encode "Hi."
    {| BaseEngine.add_special_tokens := true;
       BaseEngine.truncation := false;
       BaseEngine.padding := false |}
  <> Fixtures.shifted_encode "Hi."
       {| BaseEngine.add_special_tokens := true;
          BaseEngine.truncation := false;
          BaseEngine.padding := false |}
  /\ BaseEngine.split_text Fixtures.split_on_terminators
       (Fixtures.engine_of Fixtures.char_encode) "Hi. Hello world. Yo." 50 4 None
     = BaseEngine.split_text Fixtures.split_on_terminators
         (Fixtures.engine_of Fixtures.shifted_encode) "Hi. Hello world. Yo." 50 4 None.
Proof.
  split; [discriminate|].
  apply (split_text_tokenizing_function Fixtures.split_on_terminators
           (Fixtures.engine_of Fixtures.char_encode)
           (Fixtures.engine_of Fixtures.shifted_encode)).
  intros s. cbn [Fixtures.engine_of BaseEngine.encode BaseEngine.tokenizer BaseEngine.generator].
  unfold Fixtures.char_encode, Fixtures.shifted_encode. cbn [BaseEngine.add_special_tokens].
  rewrite length_map. reflexivity.
Defined.

(** *** The declared surface *)

(** C7 fails as stated: [BaseEngine] declares three families and six
    generation entry points, not four and eight. *)
Lemma generation_surface_not_eight :
  ~ (length (BaseEngine.families BaseEngine.generation_entry_points) = 4%nat
     /\ length BaseEngine.generation_entry_points = 8%nat).
Proof. intros [H _]. vm_compute in H. discriminate H. Qed.

(** C7, as amended.  The generation entry points of [BaseEngine] are six:
    the three families [speak], [clone_voice] and [generate_voice], each in
    a batch form returning an array and a streaming form returning an
    asynchronous iterator of arrays; each takes the sampling parameters and
    the chunking parameters. *)
Theorem generation_surface :
  BaseEngine.families BaseEngine.generation_entry_points
  = ["speak"; "clone_voice"; "generate_voice"]
  /\ length BaseEngine.generation_entry_points = 6%nat
  /\ BaseEngine.classify <$> BaseEngine.generation_entry_points
     = Some <$> list_prod (BaseEngine.families BaseEngine.generation_entry_points)
                  [BaseEngine.Batch; BaseEngine.Streaming]
  /\ Forall (fun sig =>
               match BaseEngine.classify sig with
               | Some (_, BaseEngine.Batch) =>
                   BaseEngine.returns sig = BaseEngine.NdArray
               | Some (_, BaseEngine.Streaming) =>
                   BaseEngine.returns sig = BaseEngine.AsyncIteratorNdArray
               | None => False
               end)
       BaseEngine.generation_entry_points
  /\ Forall (fun sig =>
               Forall (fun n => BaseEngine.accepts sig n = true)
                 ["temperature"; "top_k"; "top_p"; "max_tokens";
                  "length_threshold"; "window_size"; "split_fn"])
       BaseEngine.generation_entry_points.
Proof.
  split; [reflexivity|]. split; [reflexivity|]. split; [reflexivity|].
  split.
  - repeat constructor.
  - repeat (constructor; [repeat constructor|]). constructor.
Qed.

(** *** Defaults *)

Lemma bind_param_insert (kw : gmap string BaseEngine.PyValue) (n : string)
    (v : BaseEngine.PyValue) (p : BaseEngine.Param) :
  kw !! n = None ->
  (BaseEngine.name p = n -> BaseEngine.default p = Some v) ->
  BaseEngine.bind_param (<[n:=v]> kw) p = BaseEngine.bind_param kw p.
Proof.
  intros Hkw Hdef. unfold BaseEngine.bind_param.
  destruct (decide (BaseEngine.name p = n)) as [Heq|Hne].
  - rewrite Heq, lookup_insert_eq, Hkw, (Hdef Heq). reflexivity.
  - rewrite lookup_insert_ne by congruence. reflexivity.
Qed.

Lemma mapM_bind_param_insert (kw : gmap string BaseEngine.PyValue) (n : string)
    (v : BaseEngine.PyValue) (ps : list BaseEngine.Param) :
  kw !! n = None ->
  Forall (fun p => BaseEngine.name p = n -> BaseEngine.default p = Some v) ps ->
  mapM (BaseEngine.bind_param (<[n:=v]> kw)) ps = mapM (BaseEngine.bind_param kw) ps.
Proof.
  intros Hkw Hps. induction Hps as [|p ps Hp _ IH]; [reflexivity|].
  cbn. rewrite (bind_param_insert kw n v p Hkw Hp), IH. reflexivity.
Qed.

(** Supplying the default of a declared parameter changes nothing. *)
Lemma bind_insert_default (sig : BaseEngine.Signature)
    (kw : gmap string BaseEngine.PyValue) (n : string) (v : BaseEngine.PyValue) :
  kw !! n = None ->
  BaseEngine.declared sig n = true ->
  Forall (fun p => BaseEngine.name p = n -> BaseEngine.default p = Some v)
    (BaseEngine.params sig) ->
  BaseEngine.bind sig (<[n:=v]> kw) = BaseEngine.bind sig kw.
Proof.
  intros Hkw Hdecl Hps. unfold BaseEngine.bind.
  rewrite (mapM_bind_param_insert kw n v _ Hkw Hps).
  rewrite map_filter_insert_not; [reflexivity|].
  intros y. cbn. rewrite Hdecl. discriminate.
Qed.

(** C10.  Each of the six generation entry points declares each shared
    parameter with the same default, and a call that leaves such a parameter
    out binds its arguments exactly as the call that passes the default. *)
Theorem shared_defaults_uniform (sig : BaseEngine.Signature) (n : string)
    (v : BaseEngine.PyValue) (kw : gmap string BaseEngine.PyValue) :
  In sig BaseEngine.generation_entry_points ->
  In (n, v) BaseEngine.shared_defaults ->
  kw !! n = None ->
  BaseEngine.default_of sig n = Some v
  /\ BaseEngine.bind sig kw = BaseEngine.bind sig (<[n:=v]> kw).
Proof.
  intros Hsig Hn Hkw.
  assert (H : BaseEngine.default_of sig n = Some v
              /\ BaseEngine.declared sig n = true
              /\ Forall (fun p => BaseEngine.name p = n -> BaseEngine.default p = Some v)
                   (BaseEngine.params sig)).
  { unfold BaseEngine.generation_entry_points, BaseEngine.methods in Hsig.
    unfold BaseEngine.shared_defaults in Hn. simpl in Hsig, Hn.
    repeat (destruct Hsig as [<-|Hsig]; [|]); try contradiction;
      repeat (destruct Hn as [[= <- <-]|Hn]; [|]); try contradiction;
      (split; [reflexivity|]; split; [reflexivity|];
       repeat (constructor; [intros E; first [discriminate E | reflexivity]|]);
       constructor). }
  destruct H as (Hdef & Hdecl & Hps).
  split; [exact Hdef|].
  symmetry. apply bind_insert_default; assumption.
Qed.

Lemma shared_defaults_uniform_witness :
  BaseEngine.bind BaseEngine.clone_voice_stream_async
    {[ "text" := BaseEngine.PyStr "Hi."; "reference_audio" := BaseEngine.PyObject 1 ]}
  = BaseEngine.bind BaseEngine.clone_voice_stream_async
      (<["top_p" := BaseEngine.PyFloat 0.95]>
         {[ "text" := BaseEngine.PyStr "Hi.";
            "reference_audio" := BaseEngine.PyObject 1 ]}).
Proof.
  apply (shared_defaults_uniform BaseEngine.clone_voice_stream_async "top_p"
           (BaseEngine.PyFloat 0.95)).
  - simpl. tauto.
  - simpl. tauto.
  - reflexivity.
Defined.

(** ** Sessions *)

Section SessionFacts.

Context {St : Type}.
Variable default_split_fn : string -> list string.
Variable self : Session.Engine (St := St).

(** *** Batch *)

Lemma batch_loop_generated (v : Session.VoiceContext) (s : Session.Sampling)
    (segments : list string) :
  forall audios st ws st',
    Session.generated self st (Session.requests v s segments) ws st' ->
    Session.batch_loop self v s segments audios st
    = (Session.Completed (concat (audios ++ ws)), st').
Proof.
  induction segments as [|seg rest IH]; intros audios st ws st' Hrun;
    inversion Hrun as [|? ? audio st1 ? ws' ? Hgen Hrest]; subst; simpl.
  - now rewrite app_nil_r.
  - rewrite Hgen. rewrite (IH _ _ _ _ Hrest), <- app_assoc. reflexivity.
Qed.

Lemma batch_loop_completed (v : Session.VoiceContext) (s : Session.Sampling)
    (segments : list string) :
  forall audios st wave st',
    Session.batch_loop self v s segments audios st = (Session.Completed wave, st') ->
    exists ws,
      Session.generated self st (Session.requests v s segments) ws st'
      /\ wave = concat (audios ++ ws).
Proof.
  induction segments as [|seg rest IH]; intros audios st wave st' Hloop;
    simpl in Hloop.
  - injection Hloop as <- <-. exists []. split; [constructor|].
    now rewrite app_nil_r.
  - destruct (Session.generate self _ st) as [[audio|e] st1] eqn:Hgen;
      [|discriminate].
    destruct (IH _ _ _ _ Hloop) as (ws & Hrun & ->).
    exists (audio :: ws). split.
    + simpl. econstructor; eassumption.
    + now rewrite <- app_assoc.
Qed.

Lemma generated_length (st : St) (rs : list Session.Request)
    (ws : list Session.Waveform) (st' : St) :
  Session.generated self st rs ws st' -> length ws = length rs.
Proof. induction 1; simpl; congruence. Qed.

Lemma concat_length_sum (ws : list Session.Waveform) :
  length (concat ws) = sum_list (length <$> ws).
Proof.
  induction ws as [|w ws IH]; simpl; [reflexivity|].
  rewrite length_app, IH. reflexivity.
Qed.

(** C8.  A batch entry point returns a waveform exactly when the chunks of
    the text, taken from left to right, are all generated; the waveform is
    then the concatenation of the waveforms of the chunks in chunk order,
    one for each chunk, and its length the sum of their lengths. *)
Theorem batch_concatenates (c : Session.Call) (text : string)
    (temperature : Q) (top_k : Z) (top_p : Q) (max_tokens : Z)
    (length_threshold window_size : Z)
    (split_fn : option (string -> list string)) (st : St)
    (wave : Session.Waveform) (st' : St) :
  let segments :=
    Session.segment default_split_fn self text length_threshold window_size split_fn in
  let sampling :=
    {| Session.temperature := temperature; Session.top_k := top_k;
       Session.top_p := top_p; Session.max_tokens := max_tokens |} in
  Session.batch_entry default_split_fn self c text temperature top_k top_p max_tokens
    length_threshold window_size split_fn st
  = (Session.Completed wave, st')
  <-> exists audios,
        Session.generated self st
          (Session.requests (Session.voice_of c) sampling segments) audios st'
        /\ wave = concat audios
        /\ length audios = length segments
        /\ length wave = sum_list (length <$> audios).
Proof.
  intros segments sampling.
  assert (E : Session.batch_entry default_split_fn self c text temperature top_k top_p
                max_tokens length_threshold window_size split_fn st
              = Session.batch_loop self (Session.voice_of c) sampling segments [] st)
    by (destruct c; reflexivity).
  rewrite E. split.
  - intros Hloop. apply batch_loop_completed in Hloop.
    destruct Hloop as (ws & Hrun & ->). exists ws.
    split; [exact Hrun|]. split; [reflexivity|]. split.
    + rewrite (generated_length _ _ _ _ Hrun).
      unfold Session.requests. apply length_map.
    + apply concat_length_sum.
  - intros (audios & Hrun & -> & _).
    apply (batch_loop_generated _ _ _ [] _ _ _ Hrun).
Qed.

(** *** Streaming *)

Lemma in_chunk_order_cons (cursor : nat) (frames : list Session.Frame)
    (fss : list (list Session.Frame)) :
  Session.in_chunk_order cursor (frames :: fss)
  = Session.tag_frames cursor frames ++ Session.in_chunk_order (S cursor) fss.
Proof.
  unfold Session.in_chunk_order. rewrite imap_cons. simpl concat.
  rewrite Nat.add_0_r. f_equal. f_equal.
  apply imap_ext. intros i fs _. simpl. f_equal. lia.
Qed.

Lemma stream_loop_streamed (v : Session.VoiceContext) (s : Session.Sampling)
    (segments : list string) :
  forall cursor emitted st,
  exists fss,
    Session.streamed self st (Session.requests v s segments) fss
      (snd (fst (Session.stream_loop self v s segments cursor emitted st)))
      (snd (Session.stream_loop self v s segments cursor emitted st))
    /\ fst (fst (Session.stream_loop self v s segments cursor emitted st))
       = emitted ++ Session.in_chunk_order cursor fss.
Proof.
  induction segments as [|seg rest IH]; intros cursor emitted st; simpl.
  - exists []. split; [constructor|]. now rewrite app_nil_r.
  - destruct (Session.generate_stream self _ st) as [[frames [e|]] st1] eqn:Hgen.
    + exists [frames]. split.
      * simpl. eapply Session.streamed_failed. exact Hgen.
      * simpl. rewrite in_chunk_order_cons.
        unfold Session.in_chunk_order. simpl. now rewrite app_nil_r.
    + destruct (IH (S cursor) (emitted ++ Session.tag_frames cursor frames) st1)
        as (fss & Hrun & Hem).
      exists (frames :: fss). split.
      * eapply Session.streamed_next; eassumption.
      * rewrite Hem, in_chunk_order_cons, <- app_assoc. reflexivity.
Qed.

Lemma tag_frames_frame (i : nat) (frames : list Session.Frame) :
  Session.frame <$> Session.tag_frames i frames = frames.
Proof.
  unfold Session.tag_frames. rewrite fmap_imap.
  rewrite (imap_ext _ (fun _ f => f)) by reflexivity.
  induction frames as [|f frames IH]; [reflexivity|].
  rewrite imap_cons. f_equal. exact IH.
Qed.

Lemma in_chunk_order_frames (fss : list (list Session.Frame)) :
  forall cursor, Session.frame <$> Session.in_chunk_order cursor fss = concat fss.
Proof.
  induction fss as [|frames fss IH]; intros cursor; [reflexivity|].
  rewrite in_chunk_order_cons, fmap_app, tag_frames_frame, IH. reflexivity.
Qed.

Lemma tag_frames_elem (i : nat) (frames : list Session.Frame) (e : Session.Emission) :
  e ∈ Session.tag_frames i frames -> Session.chunk_index e = i.
Proof.
  unfold Session.tag_frames. intros He.
  apply elem_of_lookup_imap_1 in He. destruct He as (j & f & -> & _). reflexivity.
Qed.

Lemma tag_frames_sorted (i : nat) (frames : list Session.Frame) :
  StronglySorted Session.cursor_le (Session.tag_frames i frames).
Proof.
  unfold Session.tag_frames.
  enough (H : forall k,
             StronglySorted Session.cursor_le
               (imap (fun j f => {| Session.chunk_index := i;
                                    Session.frame_index := k + j;
                                    Session.frame := f |}) frames)).
  { specialize (H 0%nat). simpl in H. exact H. }
  induction frames as [|f frames IH]; intros k; [constructor|].
  rewrite imap_cons. constructor.
  - rewrite (imap_ext _ (fun j f => {| Session.chunk_index := i;
                                       Session.frame_index := S k + j;
                                       Session.frame := f |})).
    + apply IH.
    + intros j x _. simpl. f_equal. lia.
  - rewrite List.Forall_forall. intros e He.
    apply list_elem_of_In, elem_of_lookup_imap_1 in He.
    destruct He as (j & x & -> & _).
    right. simpl. split; [reflexivity | lia].
Qed.

Lemma in_chunk_order_elem (fss : list (list Session.Frame)) :
  forall cursor e,
    e ∈ Session.in_chunk_order cursor fss -> (cursor <= Session.chunk_index e)%nat.
Proof.
  induction fss as [|frames fss IH]; intros cursor e He.
  - inversion He.
  - rewrite in_chunk_order_cons in He. apply elem_of_app in He.
    destruct He as [He|He].
    + apply tag_frames_elem in He. lia.
    + apply IH in He. lia.
Qed.

Lemma in_chunk_order_sorted (fss : list (list Session.Frame)) :
  forall cursor, StronglySorted Session.cursor_le (Session.in_chunk_order cursor fss).
Proof.
  induction fss as [|frames fss IH]; intros cursor.
  - constructor.
  - rewrite in_chunk_order_cons. apply StronglySorted_app_2.
    + intros e1 e2 H1 H2. left.
      apply tag_frames_elem in H1. apply in_chunk_order_elem in H2. lia.
    + apply tag_frames_sorted.
    + apply IH.
Qed.

(** C9.  The frames emitted by a streaming entry point are the frame
    sequences of the chunks, generated from left to right, one sequence
    after the other and each in generation order; tagged with the chunk
    and frame index, the emission never goes back. *)
Theorem stream_emission_order (c : Session.Call) (text : string)
    (temperature : Q) (top_k : Z) (top_p : Q) (max_tokens : Z)
    (length_threshold window_size : Z)
    (split_fn : option (string -> list string)) (st : St) :
  let segments :=
    Session.segment default_split_fn self text length_threshold window_size split_fn in
  let sampling :=
    {| Session.temperature := temperature; Session.top_k := top_k;
       Session.top_p := top_p; Session.max_tokens := max_tokens |} in
  let result :=
    Session.stream_entry default_split_fn self c text temperature top_k top_p
      max_tokens length_threshold window_size split_fn st in
  exists fss,
    Session.streamed self st
      (Session.requests (Session.voice_of c) sampling segments) fss
      (snd (fst result)) (snd result)
    /\ fst (fst result) = Session.in_chunk_order 0 fss
    /\ Session.frame <$> fst (fst result) = concat fss
    /\ StronglySorted Session.cursor_le (fst (fst result)).
Proof.
  intros segments sampling result.
  assert (E : result
              = Session.stream_loop self (Session.voice_of c) sampling segments 0 [] st)
    by (destruct c; reflexivity).
  rewrite E.
  destruct (stream_loop_streamed (Session.voice_of c) sampling segments 0 [] st)
    as (fss & Hrun & Hem).
  simpl in Hem. exists fss.
  split; [exact Hrun|]. split; [exact Hem|]. rewrite Hem. split.
  - apply in_chunk_order_frames.
  - apply in_chunk_order_sorted.
Qed.

End SessionFacts.

(** *** Sessions on a concrete backend *)

Example speak_async_two_chunks :
  Session.speak_async Fixtures.split_on_terminators
    (Fixtures.renderer Fixtures.char_encode) "voice" "Hi. Yo." 0.9 50 0.95 4096 0 3 None
    0%nat
  = (Session.Completed [72; 105; 46; 32; 89; 111; 46], 2%nat).
Proof. reflexivity. Qed.

Example speak_async_failure :
  Session.speak_async Fixtures.split_on_terminators
    (Fixtures.renderer Fixtures.char_encode) "voice" "Hi. Y#o. A." 0.9 50 0.95 4096 0 3
    None 0%nat
  = (Session.BackendFailure "mark", 2%nat).
Proof. reflexivity. Qed.

Example speak_stream_async_failure :
  Session.speak_stream_async Fixtures.split_on_terminators
    (Fixtures.renderer Fixtures.char_encode) "voice" "Hi. Y#o. A." 0.9 50 0.95 4096 0 3
    None 0%nat
  = ([ {| Session.chunk_index := 0; Session.frame_index := 0; Session.frame := [72] |};
       {| Session.chunk_index := 0; Session.frame_index := 1; Session.frame := [105] |};
       {| Session.chunk_index := 0; Session.frame_index := 2; Session.frame := [46] |};
       {| Session.chunk_index := 1; Session.frame_index := 0; Session.frame := [32] |};
       {| Session.chunk_index := 1; Session.frame_index := 1; Session.frame := [89] |} ],
     Some "mark"%string, 2%nat).
Proof. reflexivity. Qed.

Lemma batch_concatenates_witness :
  exists audios,
    Session.generated (Fixtures.renderer Fixtures.char_encode) 0%nat
      (Session.requests (Session.NamedVoice "voice")
         {| Session.temperature := 0.9; Session.top_k := 50;
            Session.top_p := 0.95; Session.max_tokens := 4096 |}
         ["Hi."; " Yo."])
      audios 2%nat
    /\ [72; 105; 46; 32; 89; 111; 46] = concat audios
    /\ length audios = 2%nat
    /\ 7%nat = sum_list (length <$> audios).
Proof.
  apply (batch_concatenates Fixtures.split_on_terminators
           (Fixtures.renderer Fixtures.char_encode) (Session.Speak "voice") "Hi. Yo."
           0.9 50 0.95 4096 0 3 None 0%nat [72; 105; 46; 32; 89; 111; 46] 2%nat).
  reflexivity.
Defined.

(** ** Device detection *)

Lemma names_device_cases (device : string) :
  BaseEngine.names_device device = true <->
  device = "cpu" \/ device = "cuda" \/ device = "mps"
  \/ String.prefix "cuda" device = true.
Proof.
  unfold BaseEngine.names_device. cbn [existsb].
  rewrite !orb_true_iff, !String.eqb_eq. intuition discriminate.
Qed.

Lemma auto_detect_names_device (env : BaseEngine.Platform) (device : string) :
  BaseEngine.names_device (BaseEngine._auto_detect_device env device) = true.
Proof.
  unfold BaseEngine._auto_detect_device.
  destruct (BaseEngine.names_device device) eqn:E; [exact E|].
  destruct (BaseEngine.cuda_is_available env); [reflexivity|].
  destruct (_ && _); reflexivity.
Qed.

(** Whatever it is given and whatever the platform, [_auto_detect_device]
    returns ["cpu"], ["cuda"], ["mps"] or a name that starts with ["cuda"];
    in particular it never returns ["auto"]. *)
Theorem auto_detect_resolved (env : BaseEngine.Platform) (device : string) :
  let r := BaseEngine._auto_detect_device env device in
  (r = "cpu" \/ r = "cuda" \/ r = "mps" \/ String.prefix "cuda" r = true)
  /\ r <> "auto".
Proof.
  intros r. pose proof (auto_detect_names_device env device) as H. fold r in H.
  split; [apply names_device_cases; exact H|].
  intros E. rewrite E in H. discriminate H.
Qed.

(** A device that has been detected is final: detecting again, on the same
    or on any other platform, gives it back. *)
Theorem auto_detect_stable (env env' : BaseEngine.Platform) (device : string) :
  BaseEngine._auto_detect_device env' (BaseEngine._auto_detect_device env device)
  = BaseEngine._auto_detect_device env device.
Proof.
  unfold BaseEngine._auto_detect_device at 1.
  rewrite auto_detect_names_device. reflexivity.
Qed.

(** A name that is neither ["cpu"], ["cuda"] nor ["mps"] and does not start
    with ["cuda"] is not rejected: it is handled as ["auto"] is. *)
Theorem auto_detect_unrecognised (env : BaseEngine.Platform) (device : string) :
  BaseEngine.names_device device = false ->
  BaseEngine._auto_detect_device env device
  = BaseEngine._auto_detect_device env "auto".
Proof.
  intros H. unfold BaseEngine._auto_detect_device. rewrite H. reflexivity.
Qed.

Lemma auto_detect_unrecognised_witness :
  BaseEngine.names_device "mps:0" = false
  /\ BaseEngine._auto_detect_device
       Fixtures.linux_cuda "mps:0"
     = BaseEngine._auto_detect_device
         Fixtures.linux_cuda "auto".
Proof.
  split; [reflexivity|].
  apply (auto_detect_unrecognised
           Fixtures.linux_cuda "mps:0").
  reflexivity.
Defined.

(** ["mps"] comes out only when it was asked for by name, or when the name
    given is not a device, CUDA is not available, the system is Darwin and
    MPS is available; and in those cases it does come out. *)
Theorem auto_detect_mps (env : BaseEngine.Platform) (device : string) :
  BaseEngine._auto_detect_device env device = "mps" <->
  device = "mps"
  \/ (BaseEngine.names_device device = false
      /\ BaseEngine.cuda_is_available env = false
      /\ BaseEngine.system env = "Darwin"
      /\ BaseEngine.mps_is_available env = true).
Proof.
  unfold BaseEngine._auto_detect_device. split.
  - destruct (BaseEngine.names_device device) eqn:E; [intros ->; left; reflexivity|].
    destruct (BaseEngine.cuda_is_available env); [discriminate|].
    destruct (String.eqb_spec (BaseEngine.system env) "Darwin") as [Hs|Hs];
      [|discriminate].
    destruct (BaseEngine.mps_is_available env); [|discriminate].
    intros _. right. repeat split; assumption.
  - intros [->|(E & Hc & Hs & Hm)]; [reflexivity|].
    rewrite E, Hc, Hs, Hm. reflexivity.
Qed.

Lemma auto_detect_mps_witness :
  BaseEngine._auto_detect_device
    Fixtures.mac "auto"
  = "mps".
Proof.
  apply (auto_detect_mps
           Fixtures.mac "auto").
  right. repeat split; reflexivity.
Defined.

(** ** The constructor *)

Lemma call_keywords_Some (named : list (string * BaseEngine.PyValue))
    (kwargs g : gmap string BaseEngine.PyValue) :
  BaseEngine.call_keywords named kwargs = Some g <->
  (forall kv, kv ∈ named -> kwargs !! kv.1 = None) /\ g = list_to_map named ∪ kwargs.
Proof.
  unfold BaseEngine.call_keywords.
  destruct (forallb _ named) eqn:E.
  - rewrite forallb_forall in E. split.
    + intros [= <-]. split; [|reflexivity].
      intros kv Hkv. apply list_elem_of_In, E, bool_decide_eq_true in Hkv. exact Hkv.
    + intros [_ ->]. reflexivity.
  - split; [discriminate|]. intros [H _]. exfalso.
    assert (forallb (fun kv => bool_decide (kwargs !! kv.1 = None)) named = true)
      as E'; [|rewrite E' in E; discriminate E].
    apply forallb_forall. intros kv Hkv.
    apply bool_decide_eq_true, H, list_elem_of_In, Hkv.
Qed.

Lemma call_keywords_None (named : list (string * BaseEngine.PyValue))
    (kwargs : gmap string BaseEngine.PyValue) :
  BaseEngine.call_keywords named kwargs = None <->
  exists k, k ∈ named.*1 /\ is_Some (kwargs !! k).
Proof.
  split.
  - intros H.
    destruct (decide (Forall (fun kv => kwargs !! kv.1 = None) named)) as [Hall|Hnot].
    + exfalso.
      assert (BaseEngine.call_keywords named kwargs
              = Some (list_to_map named ∪ kwargs)) as E; [|congruence].
      apply call_keywords_Some. split; [|reflexivity].
      intros kv Hkv. rewrite Forall_forall in Hall. apply Hall, Hkv.
    + apply not_Forall_Exists in Hnot; [|apply _].
      apply Exists_exists in Hnot. destruct Hnot as (kv & Hkv & Hsome).
      exists kv.1. split.
      * apply list_elem_of_fmap. exists kv. split; [reflexivity | exact Hkv].
      * destruct (kwargs !! kv.1) eqn:El; [eexists; reflexivity | congruence].
  - intros (k & Hk & Hsome).
    destruct (BaseEngine.call_keywords named kwargs) as [g|] eqn:E; [|reflexivity].
    exfalso. apply call_keywords_Some in E. destruct E as [Hall _].
    apply list_elem_of_fmap in Hk. destruct Hk as (kv & -> & Hkv).
    rewrite (Hall kv Hkv) in Hsome. destruct Hsome as [? ?]. discriminate.
Qed.

Lemma initialize_llm_named_keys (env : BaseEngine.Platform) (a : BaseEngine.InitArgs) :
  (BaseEngine.initialize_llm_named env a).*1
  = [ "model_path"; "backend"; "max_length"; "device"; "attn_implementation";
      "torch_dtype"; "gpu_memory_utilization"; "cache_implementation";
      "batch_size"; "seed"; "stop_tokens"; "stop_token_ids" ].
Proof. reflexivity. Qed.

Lemma initialize_llm_named_lookup (env : BaseEngine.Platform) (a : BaseEngine.InitArgs)
    (k : string) (v : BaseEngine.PyValue) :
  (k, v) ∈ BaseEngine.initialize_llm_named env a ->
  (list_to_map (BaseEngine.initialize_llm_named env a)
    : gmap string BaseEngine.PyValue) !! k = Some v.
Proof.
  apply elem_of_list_to_map_1. rewrite initialize_llm_named_keys.
  apply (bool_decide_unpack _). vm_compute. reflexivity.
Qed.

(** The device that reaches [initialize_llm] is the detected one: a device
    name, never ["auto"], whatever [llm_device] was. *)
Theorem init_device_resolved (env : BaseEngine.Platform) (a : BaseEngine.InitArgs)
    (g : gmap string BaseEngine.PyValue) :
  BaseEngine.initialize_llm_keywords env a = Some g ->
  exists r,
    g !! "device" = Some (BaseEngine.PyStr r)
    /\ r = BaseEngine._auto_detect_device env (BaseEngine.llm_device a)
    /\ BaseEngine.names_device r = true
    /\ r <> "auto".
Proof.
  intros H. apply call_keywords_Some in H. destruct H as [_ ->].
  exists (BaseEngine._auto_detect_device env (BaseEngine.llm_device a)).
  split.
  - apply lookup_union_Some_l, initialize_llm_named_lookup.
    cbn. repeat (first [apply list_elem_of_here | apply list_elem_of_further]).
  - split; [reflexivity|]. split; [apply auto_detect_names_device|].
    apply auto_detect_resolved.
Qed.

(** The constructor fails with a [TypeError] exactly when [**kwargs] holds
    one of the twelve keywords that the call of [initialize_llm] writes out;
    [initialize_llm] is then not entered, so the failure does not depend on
    it. *)
Theorem init_duplicate_keyword
    (initialize_llm : gmap string BaseEngine.PyValue -> option BaseEngine.Generator)
    (env : BaseEngine.Platform) (a : BaseEngine.InitArgs) :
  (BaseEngine.initialize_llm_keywords env a = None <->
   exists k,
     k ∈ [ "model_path"; "backend"; "max_length"; "device"; "attn_implementation";
           "torch_dtype"; "gpu_memory_utilization"; "cache_implementation";
           "batch_size"; "seed"; "stop_tokens"; "stop_token_ids" ]
     /\ is_Some (BaseEngine.kwargs a !! k))
  /\ (BaseEngine.initialize_llm_keywords env a = None ->
      BaseEngine.__init__ initialize_llm env a = None).
Proof.
  split.
  - unfold BaseEngine.initialize_llm_keywords.
    rewrite call_keywords_None, initialize_llm_named_keys. reflexivity.
  - intros H. unfold BaseEngine.__init__. rewrite H. reflexivity.
Qed.

Lemma bind_extra (sig : BaseEngine.Signature) (kw : gmap string BaseEngine.PyValue)
    (b : BaseEngine.Bound) :
  BaseEngine.bind sig kw = Some b ->
  BaseEngine.extra b
  = filter (fun kv => BaseEngine.declared sig kv.1 = false) kw.
Proof.
  unfold BaseEngine.bind. intros H.
  destruct (mapM _ _) as [args|]; [|discriminate].
  cbn in H. destruct (_ || _); [|discriminate].
  injection H as <-. reflexivity.
Qed.

(** Seen from a keyword call of the constructor: the keywords that are not
    parameters of [__init__] are collected in [**kwargs] and passed on, so
    the call fails with a [TypeError] exactly when it uses [model_path],
    [device], [attn_implementation] or [gpu_memory_utilization], the names
    that [initialize_llm] takes for [llm_model_path], [llm_device],
    [llm_attn_implementation] and [llm_gpu_memory_utilization]. *)
Theorem init_renamed_keywords (env : BaseEngine.Platform)
    (kw : gmap string BaseEngine.PyValue) (b : BaseEngine.Bound)
    (a : BaseEngine.InitArgs) :
  BaseEngine.bind BaseEngine.init kw = Some b ->
  BaseEngine.kwargs a = BaseEngine.extra b ->
  BaseEngine.initialize_llm_keywords env a = None <->
  exists k,
    k ∈ [ "model_path"; "device"; "attn_implementation"; "gpu_memory_utilization" ]
    /\ is_Some (kw !! k).
Proof.
  intros Hb Ha.
  unfold BaseEngine.initialize_llm_keywords.
  rewrite call_keywords_None, initialize_llm_named_keys, Ha, (bind_extra _ _ _ Hb).
  split.
  - intros (k & Hk & [v Hv]).
    apply map_lookup_filter_Some in Hv. destruct Hv as [Hv Hdecl]. cbn in Hdecl.
    exists k. split; [|eexists; exact Hv].
    repeat (apply elem_of_cons in Hk; destruct Hk as [->|Hk];
            [first [discriminate Hdecl | set_solver]|]).
    inversion Hk.
  - intros (k & Hk & [v Hv]).
    exists k. split.
    + repeat (apply elem_of_cons in Hk; destruct Hk as [->|Hk]; [set_solver|]).
      inversion Hk.
    + exists v. apply map_lookup_filter_Some. split; [exact Hv|]. cbn.
      repeat (apply elem_of_cons in Hk; destruct Hk as [->|Hk]; [reflexivity|]).
      inversion Hk.
Qed.

(** When the constructor gets through, [initialize_llm] receives every
    keyword of [**kwargs] unchanged, the parameters of [__init__] under the
    names of the call, and nothing else. *)
Theorem init_forwards (env : BaseEngine.Platform) (a : BaseEngine.InitArgs)
    (g : gmap string BaseEngine.PyValue) :
  BaseEngine.initialize_llm_keywords env a = Some g ->
  (forall k v, BaseEngine.kwargs a !! k = Some v -> g !! k = Some v)
  /\ (forall k v, (k, v) ∈ BaseEngine.initialize_llm_named env a -> g !! k = Some v)
  /\ (forall k, is_Some (g !! k) ->
        k ∈ (BaseEngine.initialize_llm_named env a).*1
        \/ is_Some (BaseEngine.kwargs a !! k))
  /\ size g = (12 + size (BaseEngine.kwargs a))%nat.
Proof.
  intros H. apply call_keywords_Some in H. destruct H as [Hfree ->].
  assert (Hdisj : (list_to_map (BaseEngine.initialize_llm_named env a)
                    : gmap string BaseEngine.PyValue) ##ₘ BaseEngine.kwargs a).
  { apply map_disjoint_spec. intros k v v' Hv Hv'.
    apply elem_of_list_to_map_2 in Hv. specialize (Hfree _ Hv). cbn in Hfree.
    congruence. }
  split; [|split; [|split]].
  - intros k v Hk. apply lookup_union_Some; [exact Hdisj|]. right. exact Hk.
  - intros k v Hk. apply lookup_union_Some_l, initialize_llm_named_lookup, Hk.
  - intros k [v Hv]. apply lookup_union_Some in Hv; [|exact Hdisj].
    destruct Hv as [Hv|Hv]; [left | right; eexists; exact Hv].
    apply elem_of_list_to_map_2 in Hv.
    apply list_elem_of_fmap. exists (k, v). split; [reflexivity | exact Hv].
  - rewrite map_size_disj_union by exact Hdisj.
    rewrite map_size_list_to_map; [reflexivity|].
    rewrite initialize_llm_named_keys.
    apply (bool_decide_unpack _). vm_compute. reflexivity.
Qed.

(** ** Keyword calls of the declared methods *)

Lemma not_declared_names (sig : BaseEngine.Signature) (k : string) :
  BaseEngine.declared sig k = false ->
  Forall (fun p => BaseEngine.name p <> k) (BaseEngine.params sig).
Proof.
  unfold BaseEngine.declared. intros H. apply bool_decide_eq_false in H.
  apply Forall_forall. intros p Hp E. apply H.
  apply list_elem_of_fmap. exists p. split; [symmetry; exact E | exact Hp].
Qed.

Lemma mapM_bind_param_insert_ne (kw : gmap string BaseEngine.PyValue) (k : string)
    (v : BaseEngine.PyValue) (ps : list BaseEngine.Param) :
  Forall (fun p => BaseEngine.name p <> k) ps ->
  mapM (BaseEngine.bind_param (<[k:=v]> kw)) ps = mapM (BaseEngine.bind_param kw) ps.
Proof.
  intros Hps. induction Hps as [|p ps Hp _ IH]; [reflexivity|].
  cbn. rewrite IH. unfold BaseEngine.bind_param.
  rewrite lookup_insert_ne by congruence. reflexivity.
Qed.

Lemma bind_unknown_keyword (sig : BaseEngine.Signature)
    (kw : gmap string BaseEngine.PyValue) (k : string) (v : BaseEngine.PyValue) :
  BaseEngine.var_keyword sig = true ->
  BaseEngine.declared sig k = false ->
  BaseEngine.bind sig (<[k:=v]> kw)
  = (fun b => {| BaseEngine.bound := BaseEngine.bound b;
                 BaseEngine.extra := <[k:=v]> (BaseEngine.extra b) |})
      <$> BaseEngine.bind sig kw.
Proof.
  intros Hvar Hdecl. unfold BaseEngine.bind.
  rewrite (mapM_bind_param_insert_ne kw k v _ (not_declared_names _ _ Hdecl)).
  rewrite Hvar. cbn [orb].
  rewrite map_filter_insert_True by exact Hdecl.
  destruct (mapM _ _); reflexivity.
Qed.

Lemma bind_param_is_Some (kw : gmap string BaseEngine.PyValue) (p : BaseEngine.Param) :
  is_Some (BaseEngine.bind_param kw p) <->
  is_Some (kw !! BaseEngine.name p) \/ is_Some (BaseEngine.default p).
Proof.
  unfold BaseEngine.bind_param.
  destruct (kw !! BaseEngine.name p) as [v|].
  - split; [left|]; eexists; reflexivity.
  - rewrite fmap_is_Some. split; [right; assumption|].
    intros [[? [=]]|H]. exact H.
Qed.

Lemma bind_is_Some (sig : BaseEngine.Signature) (kw : gmap string BaseEngine.PyValue) :
  BaseEngine.var_keyword sig = true ->
  is_Some (BaseEngine.bind sig kw) <->
  Forall (fun n => is_Some (kw !! n)) (BaseEngine.required_names sig).
Proof.
  intros Hvar. unfold BaseEngine.bind, BaseEngine.required_names.
  rewrite Hvar. cbn [orb].
  transitivity (is_Some (mapM (BaseEngine.bind_param kw) (BaseEngine.params sig))).
  { destruct (mapM _ _); cbn; split; intros [? ?]; try discriminate; eexists;
      reflexivity. }
  rewrite mapM_is_Some.
  induction (BaseEngine.params sig) as [|p ps IH]; cbn.
  - split; constructor.
  - rewrite Forall_cons, IH. cbn. rewrite bind_param_is_Some.
    destruct (BaseEngine.default p) as [d|]; cbn.
    + split; [intros [_ H]; exact H|].
      intros H. split; [right; eexists; reflexivity | exact H].
    + rewrite Forall_cons. split; intros [H1 H2]; split; try exact H2.
      * destruct H1 as [H1|[? [=]]]. exact H1.
      * left. exact H1.
Qed.

(** A keyword call of a generation entry point binds exactly when it
    supplies the parameters that have no default: [name] and [text] for
    [speak], [text] and [reference_audio] for [clone_voice], [text] for
    [generate_voice].  Nothing else is checked. *)
Theorem generation_call_binds (sig : BaseEngine.Signature)
    (kw : gmap string BaseEngine.PyValue) :
  In sig BaseEngine.generation_entry_points ->
  (is_Some (BaseEngine.bind sig kw) <->
   Forall (fun n => is_Some (kw !! n)) (BaseEngine.required_names sig))
  /\ BaseEngine.required_names sig
     = match BaseEngine.classify sig with
       | Some ("speak"%string, _) => ["name"; "text"]
       | Some ("clone_voice"%string, _) => ["text"; "reference_audio"]
       | _ => ["text"]
       end.
Proof.
  intros Hsig.
  unfold BaseEngine.generation_entry_points, BaseEngine.methods in Hsig.
  simpl in Hsig. split.
  - apply bind_is_Some.
    repeat (destruct Hsig as [<-|Hsig]; [reflexivity|]). contradiction.
  - repeat (destruct Hsig as [<-|Hsig]; [reflexivity|]). contradiction.
Qed.

(** A keyword that is not a parameter of a generation entry point, such as
    a misspelt one, is not an error: it is collected by [**kwargs] and the
    declared parameters are bound as if it had not been given. *)
Theorem generation_call_unknown_keyword (sig : BaseEngine.Signature)
    (kw : gmap string BaseEngine.PyValue) (k : string) (v : BaseEngine.PyValue) :
  In sig BaseEngine.generation_entry_points ->
  BaseEngine.declared sig k = false ->
  BaseEngine.bind sig (<[k:=v]> kw)
  = (fun b => {| BaseEngine.bound := BaseEngine.bound b;
                 BaseEngine.extra := <[k:=v]> (BaseEngine.extra b) |})
      <$> BaseEngine.bind sig kw.
Proof.
  intros Hsig Hdecl. apply bind_unknown_keyword; [|exact Hdecl].
  unfold BaseEngine.generation_entry_points, BaseEngine.methods in Hsig.
  simpl in Hsig.
  repeat (destruct Hsig as [<-|Hsig]; [reflexivity|]). contradiction.
Qed.

Lemma no_extra_iff (sig : BaseEngine.Signature) (kw : gmap string BaseEngine.PyValue) :
  filter (fun kv => BaseEngine.declared sig kv.1 = false) kw = ∅ <->
  forall k, is_Some (kw !! k) -> BaseEngine.declared sig k = true.
Proof.
  rewrite map_empty. split.
  - intros H k [v Hv]. specialize (H k).
    apply map_lookup_filter_None in H. destruct H as [H|H]; [congruence|].
    specialize (H v Hv). cbn in H.
    destruct (BaseEngine.declared sig k); [reflexivity | contradiction].
  - intros H k. apply map_lookup_filter_None.
    destruct (kw !! k) as [v|] eqn:Hv; [right | left; reflexivity].
    intros x _. cbn. rewrite (H k); [discriminate | eexists; exact Hv].
Qed.

(** [split_text] has no [**kwargs]: a keyword call binds exactly when it
    supplies [text] and uses no keyword other than [text],
    [length_threshold], [window_size] and [split_fn]; any other keyword is a
    [TypeError]. *)
Theorem split_text_call_binds (kw : gmap string BaseEngine.PyValue) :
  is_Some (BaseEngine.bind BaseEngine.split_text_sig kw) <->
  is_Some (kw !! "text")
  /\ forall k, is_Some (kw !! k) ->
               k ∈ ["text"; "length_threshold"; "window_size"; "split_fn"].
Proof.
  unfold BaseEngine.bind. cbn [BaseEngine.var_keyword BaseEngine.split_text_sig orb].
  transitivity
    (is_Some (mapM (BaseEngine.bind_param kw)
                (BaseEngine.params BaseEngine.split_text_sig))
     /\ filter (fun kv => BaseEngine.declared BaseEngine.split_text_sig kv.1 = false) kw
        = ∅).
  { destruct (mapM _ _) as [args|]; cbn.
    - case_bool_decide as Hrest; split.
      + intros _. split; [eexists; reflexivity | exact Hrest].
      + intros _. eexists; reflexivity.
      + intros [? [=]].
      + intros [_ H]. contradiction.
    - split; [intros [? [=]] | intros [[? [=]] _]]. }
  rewrite no_extra_iff, mapM_is_Some.
  assert (Hdecl : forall k,
             BaseEngine.declared BaseEngine.split_text_sig k = true <->
             k ∈ ["text"; "length_threshold"; "window_size"; "split_fn"]).
  { intros k. unfold BaseEngine.declared. rewrite bool_decide_eq_true. reflexivity. }
  split.
  - intros [Hreq Hall]. split.
    + apply Forall_cons in Hreq. destruct Hreq as [Htext _].
      apply bind_param_is_Some in Htext. destruct Htext as [H|[? [=]]]. exact H.
    + intros k Hk. apply Hdecl, Hall, Hk.
  - intros [Htext Hall]. split.
    + repeat constructor; apply bind_param_is_Some;
        first [left; exact Htext | right; eexists; reflexivity].
    + intros k Hk. apply Hdecl, Hall, Hk.
Qed.

(** *** The constructor and the calls on concrete arguments *)

Lemma init_device_resolved_witness :
  exists r,
    (list_to_map (BaseEngine.initialize_llm_named Fixtures.mac
                    (Fixtures.init_args "auto" ∅)) ∪ ∅
      : gmap string BaseEngine.PyValue) !! "device"
    = Some (BaseEngine.PyStr r)
    /\ r = "mps".
Proof.
  destruct (init_device_resolved Fixtures.mac (Fixtures.init_args "auto" ∅)
              (list_to_map (BaseEngine.initialize_llm_named Fixtures.mac
                              (Fixtures.init_args "auto" ∅)) ∪ ∅))
    as (r & Hdev & Hr & _).
  - apply call_keywords_Some. split; [|reflexivity].
    intros kv _. apply lookup_empty.
  - exists r. split; [exact Hdev|]. rewrite Hr. reflexivity.
Defined.

Lemma init_duplicate_keyword_witness :
  BaseEngine.__init__ Fixtures.any_llm Fixtures.linux_cuda
    (Fixtures.init_args "auto" {[ "seed" := BaseEngine.PyInt 7 ]})
  = None.
Proof.
  destruct (init_duplicate_keyword Fixtures.any_llm Fixtures.linux_cuda
              (Fixtures.init_args "auto" {[ "seed" := BaseEngine.PyInt 7 ]}))
    as [Hiff Hinit].
  apply Hinit, Hiff. exists "seed". split.
  - repeat first [apply list_elem_of_here | apply list_elem_of_further].
  - exists (BaseEngine.PyInt 7). reflexivity.
Defined.

Lemma init_renamed_keywords_witness :
  exists b,
    BaseEngine.bind BaseEngine.init
      {[ "llm_model_path" := BaseEngine.PyStr "Spark-TTS-0.5B/LLM";
         "device" := BaseEngine.PyStr "cuda" ]}
    = Some b
    /\ BaseEngine.initialize_llm_keywords Fixtures.linux_cuda
         (Fixtures.init_args "auto" (BaseEngine.extra b))
       = None.
Proof.
  destruct (BaseEngine.bind BaseEngine.init
              {[ "llm_model_path" := BaseEngine.PyStr "Spark-TTS-0.5B/LLM";
                 "device" := BaseEngine.PyStr "cuda" ]}) as [b|] eqn:Hb;
    [|vm_compute in Hb; discriminate Hb].
  exists b. split; [reflexivity|].
  apply (init_renamed_keywords Fixtures.linux_cuda _ b
           (Fixtures.init_args "auto" (BaseEngine.extra b)) Hb).
  - reflexivity.
  - exists "device". split; [repeat first [apply list_elem_of_here | apply list_elem_of_further]|].
    exists (BaseEngine.PyStr "cuda"). reflexivity.
Defined.

Lemma init_forwards_witness :
  let g : gmap string BaseEngine.PyValue :=
    list_to_map
      (BaseEngine.initialize_llm_named Fixtures.linux_cuda
         (Fixtures.init_args "cuda:1" {[ "enforce_eager" := BaseEngine.PyInt 1 ]}))
    ∪ {[ "enforce_eager" := BaseEngine.PyInt 1 ]} in
  g !! "enforce_eager" = Some (BaseEngine.PyInt 1)
  /\ g !! "device" = Some (BaseEngine.PyStr "cuda:1")
  /\ size g = 13%nat.
Proof.
  intros g.
  destruct (init_forwards Fixtures.linux_cuda
              (Fixtures.init_args "cuda:1" {[ "enforce_eager" := BaseEngine.PyInt 1 ]})
              g) as (Hkw & Hnamed & _ & Hsize).
  - apply call_keywords_Some. split; [|reflexivity].
    intros kv Hkv. apply list_elem_of_In in Hkv. simpl in Hkv.
    repeat (destruct Hkv as [<-|Hkv]; [apply lookup_singleton_ne; discriminate|]).
    contradiction.
  - split; [|split].
    + apply Hkw. reflexivity.
    + apply Hnamed. cbn.
      repeat first [apply list_elem_of_here | apply list_elem_of_further].
    + rewrite Hsize. reflexivity.
Defined.

Lemma generation_call_binds_witness :
  is_Some (BaseEngine.bind BaseEngine.generate_voice_stream_async
             {[ "text" := BaseEngine.PyStr "Hi." ]}).
Proof.
  apply (generation_call_binds BaseEngine.generate_voice_stream_async).
  - unfold BaseEngine.generation_entry_points, BaseEngine.methods. simpl. tauto.
  - repeat constructor. exists (BaseEngine.PyStr "Hi."). reflexivity.
Defined.

Lemma generation_call_unknown_keyword_witness :
  BaseEngine.bind BaseEngine.speak_async
    (<["temprature" := BaseEngine.PyFloat 0.2]>
       {[ "name" := BaseEngine.PyStr "voice"; "text" := BaseEngine.PyStr "Hi." ]})
  = (fun b => {| BaseEngine.bound := BaseEngine.bound b;
                 BaseEngine.extra :=
                   <["temprature" := BaseEngine.PyFloat 0.2]> (BaseEngine.extra b) |})
      <$> BaseEngine.bind BaseEngine.speak_async
            {[ "name" := BaseEngine.PyStr "voice"; "text" := BaseEngine.PyStr "Hi." ]}.
Proof.
  apply (generation_call_unknown_keyword BaseEngine.speak_async).
  - unfold BaseEngine.generation_entry_points, BaseEngine.methods. simpl. tauto.
  - reflexivity.
Defined.

Lemma split_text_call_binds_witness :
  ~ is_Some (BaseEngine.bind BaseEngine.split_text_sig
               {[ "text" := BaseEngine.PyStr "Hi."; "max_tokens" := BaseEngine.PyInt 9 ]}).
Proof.
  intros H. apply split_text_call_binds in H. destruct H as [_ H].
  specialize (H "max_tokens").
  assert (Hin : "max_tokens" ∈ ["text"; "length_threshold"; "window_size"; "split_fn"])
    by (apply H; exists (BaseEngine.PyInt 9); reflexivity).
  apply list_elem_of_In in Hin. simpl in Hin. intuition discriminate.
Defined.

Lemma bind_same_params (sig sig' : BaseEngine.Signature)
    (kw : gmap string BaseEngine.PyValue) :
  BaseEngine.params sig = BaseEngine.params sig' ->
  BaseEngine.var_keyword sig = BaseEngine.var_keyword sig' ->
  BaseEngine.bind sig kw = BaseEngine.bind sig' kw.
Proof.
  intros Hp Hv. unfold BaseEngine.bind, BaseEngine.declared.
  rewrite Hp, Hv. reflexivity.
Qed.

(** The batch form and the streaming form of a family take the same
    parameters, in the same order and with the same defaults: a keyword call
    binds for the one exactly as for the other. *)
Theorem batch_stream_same_binding (sig sig' : BaseEngine.Signature)
    (family : string) (form form' : BaseEngine.Form)
    (kw : gmap string BaseEngine.PyValue) :
  In sig BaseEngine.generation_entry_points ->
  In sig' BaseEngine.generation_entry_points ->
  BaseEngine.classify sig = Some (family, form) ->
  BaseEngine.classify sig' = Some (family, form') ->
  BaseEngine.params sig = BaseEngine.params sig'
  /\ BaseEngine.bind sig kw = BaseEngine.bind sig' kw.
Proof.
  intros Hsig Hsig' Hc Hc'.
  assert (H : BaseEngine.params sig = BaseEngine.params sig'
              /\ BaseEngine.var_keyword sig = BaseEngine.var_keyword sig').
  { unfold BaseEngine.generation_entry_points, BaseEngine.methods in Hsig, Hsig'.
    simpl in Hsig, Hsig'.
    repeat (destruct Hsig as [<-|Hsig]; [|]); try contradiction;
      vm_compute in Hc; injection Hc as <- <-;
      repeat (destruct Hsig' as [<-|Hsig']; [|]); try contradiction;
      vm_compute in Hc'; first [discriminate Hc' | split; reflexivity]. }
  destruct H as [Hp Hv]. split; [exact Hp|].
  apply bind_same_params; assumption.
Qed.

Lemma batch_stream_same_binding_witness :
  BaseEngine.bind BaseEngine.clone_voice_async
    {[ "text" := BaseEngine.PyStr "Hi."; "reference_audio" := BaseEngine.PyObject 1 ]}
  = BaseEngine.bind BaseEngine.clone_voice_stream_async
      {[ "text" := BaseEngine.PyStr "Hi."; "reference_audio" := BaseEngine.PyObject 1 ]}.
Proof.
  apply (batch_stream_same_binding BaseEngine.clone_voice_async
           BaseEngine.clone_voice_stream_async "clone_voice"
           BaseEngine.Batch BaseEngine.Streaming).
  - unfold BaseEngine.generation_entry_points, BaseEngine.methods. simpl. tauto.
  - unfold BaseEngine.generation_entry_points, BaseEngine.methods. simpl. tauto.
  - reflexivity.
  - reflexivity.
Defined.
